(** * The dependency URL registry of [protenix/web_service/dependency_url.py]

    The module consists of one module-level dict literal, [URL], from resource
    identifiers to download locations.  The development embeds the literal
    (its items in source order), the dict the literal evaluates to, and the
    subscription [URL[identifier]] through which callers read it. *)

From Stdlib Require Import String Ascii List.
From stdpp Require Import gmap strings list fin_maps.
Import ListNotations.

Local Open Scope string_scope.
Local Open Scope list_scope.

(** ** The dict literal *)

Module DependencyUrl.

(** The key/value pairs of the display [URL = { ... }], in source order. *)
Definition URL_items : list (string * string) :=
  [ ("model_v0.5.0",
     "https://af3-dev.tos-cn-beijing.volces.com/release_model/model_v0.5.0.pt");
    ("ccd_components_file",
     "https://af3-dev.tos-cn-beijing.volces.com/release_data/components.v20240608.cif");
    ("ccd_components_rdkit_mol_file",
     "https://af3-dev.tos-cn-beijing.volces.com/release_data/components.v20240608.cif.rdkit_mol.pkl") ].

(** Evaluation of a dict display: the items are stored left to right, a later
    item replacing an earlier one with the same key.  The map holds the
    bindings of the dict; the order in which the dict enumerates its keys
    (that of [URL_items]) is not recorded in it. *)
Definition dict_display (items : list (string * string)) : gmap string string :=
  fold_left (fun d kv => <[kv.1 := kv.2]> d) items ∅.

Definition URL : gmap string string := dict_display URL_items.

(** The binding a display gives to [k]: the value of the last item whose
    key is [k]. *)
Fixpoint last_binding (items : list (string * string)) (k : string) : option string :=
  match items with
  | [] => None
  | kv :: rest =>
      match last_binding rest k with
      | Some v => Some v
      | None => if decide (kv.1 = k) then Some kv.2 else None
      end
  end.

(** ** Subscription *)

(** The exceptions a subscription [d[key]] of a dict can raise. *)
Inductive exn : Type :=
  | KeyError (key : string)
  | TypeError.

(** A key expression: a [str], or an object that is not hashable (a list, a
    dict, ...), on which subscription raises [TypeError]. *)
Inductive pykey : Type :=
  | PyStr (s : string)
  | PyUnhashable.

Definition dict_getitem (d : gmap string string) (key : pykey) : exn + string :=
  match key with
  | PyStr s =>
      match d !! s with
      | Some v => inr v
      | None => inl (KeyError s)
      end
  | PyUnhashable => inl TypeError
  end.

(** [lookup identifier] is [URL[identifier]] for a string identifier. *)
Definition lookup (identifier : string) : exn + string :=
  dict_getitem URL (PyStr identifier).

(** ** Reads with the module's dict threaded as state

    [URL] is a module-level global: every caller subscripts the same dict
    object.  A read is a step from the dict to a result and the dict the next
    read sees. *)

Definition getitem_st (key : pykey) (d : gmap string string)
  : (exn + string) * gmap string string :=
  (dict_getitem d key, d).

Definition lookup_st (identifier : string) (d : gmap string string)
  : (exn + string) * gmap string string :=
  getitem_st (PyStr identifier) d.

(** A caller that looks up [ids] one after the other. *)
Fixpoint run_lookups (ids : list string) (d : gmap string string)
  : list (exn + string) * gmap string string :=
  match ids with
  | [] => ([], d)
  | id :: rest =>
      let '(r, d1) := lookup_st id d in
      let '(rs, d2) := run_lookups rest d1 in
      (r :: rs, d2)
  end.

(** ** Several callers on the one dict

    Each thread has the identifiers it still has to look up; a schedule names
    the thread that runs next.  A scheduled thread performs its next read on
    the shared dict and the read is logged with the thread's number. *)

Record config : Type := Config {
  registry : gmap string string;
  pending : list (list string);
  trace : list (nat * string * (exn + string))
}.

Definition sched_step (c : config) (t : nat) : config :=
  match pending c !! t with
  | Some (id :: rest) =>
      let '(r, d') := lookup_st id (registry c) in
      {| registry := d';
         pending := <[t := rest]> (pending c);
         trace := trace c ++ [(t, id, r)] |}
  | _ => c
  end.

Definition run_schedule (sched : list nat) (c : config) : config :=
  fold_left sched_step sched c.

Definition initial (threads : list (list string)) : config :=
  {| registry := URL; pending := threads; trace := [] |}.

(** The reads of thread [t] in a log, in the order they happened. *)
Definition events_of (t : nat) (tr : list (nat * string * (exn + string)))
  : list (nat * string * (exn + string)) :=
  filter (fun e => e.1.1 = t) tr.

Definition called (t : nat) (tr : list (nat * string * (exn + string)))
  : list string :=
  (fun e => e.1.2) <$> events_of t tr.

Definition observed (t : nat) (tr : list (nat * string * (exn + string)))
  : list (exn + string) :=
  (fun e => e.2) <$> events_of t tr.

(** ** Properties asked of the entries *)

(** The identifiers the specification lists for the registry. *)
Definition spec_identifiers : gset string :=
  {[ "model_v0.5.0"; "ccd_components_file"; "ccd_components_rdkit_mol_file" ]}.

Definition scheme : string := "https://".

(** Cuts a string before its first ["/"]. *)
Fixpoint split_slash (s : string) : string * string :=
  match s with
  | EmptyString => (EmptyString, EmptyString)
  | String c rest =>
      if Ascii.eqb c "/"%char then (EmptyString, s)
      else let '(h, p) := split_slash rest in (String c h, p)
  end.

(** Host and path of a location: what follows the scheme, cut before the
    first ["/"]; [None] when the location does not start with the scheme. *)
Definition url_parts (u : string) : option (string * string) :=
  if String.prefix scheme u
  then Some (split_slash
               (String.substring (String.length scheme)
                  (String.length u - String.length scheme) u))
  else None.

(** ** File names and characters of a location *)

Fixpoint has_slash (s : string) : bool :=
  match s with
  | EmptyString => false
  | String c rest => Ascii.eqb c "/"%char || has_slash rest
  end.

(** What follows the last ["/"] of a string; the string itself when it has
    none. *)
Fixpoint basename (s : string) : string :=
  match s with
  | EmptyString => EmptyString
  | String c rest => if has_slash s then basename rest else s
  end.

Fixpoint string_forallb (p : ascii -> bool) (s : string) : bool :=
  match s with
  | EmptyString => true
  | String c rest => p c && string_forallb p rest
  end.

(** Letters, digits and [-], [.], [_], [~]: the characters a URL may hold
    anywhere without percent-encoding. *)
Definition unreserved (c : ascii) : bool :=
  let n := nat_of_ascii c in
  (Nat.leb 97 n && Nat.leb n 122) || (Nat.leb 65 n && Nat.leb n 90)
  || (Nat.leb 48 n && Nat.leb n 57)
  || Ascii.eqb c "-"%char || Ascii.eqb c "."%char
  || Ascii.eqb c "_"%char || Ascii.eqb c "~"%char.

Definition path_char (c : ascii) : bool :=
  unreserved c || Ascii.eqb c "/"%char.

(** The part all locations of the literal start with. *)
Definition release_root : string :=
  "https://af3-dev.tos-cn-beijing.volces.com/".

End DependencyUrl.

Import DependencyUrl.

(** ** What a dict display evaluates to *)

Section DictDisplay.

Implicit Types (items : list (string * string)) (d : gmap string string).

Lemma fold_insert_lookup items d k :
  fold_left (fun d kv => <[kv.1 := kv.2]> d) items d !! k
  = match last_binding items k with Some v => Some v | None => d !! k end.
Proof.
  revert d. induction items as [|kv rest IH]; intros d; simpl; [done|].
  rewrite IH. destruct (last_binding rest k) as [v|]; [done|].
  rewrite lookup_insert. by case_decide.
Qed.

Lemma dict_display_lookup items k :
  dict_display items !! k = last_binding items k.
Proof.
  unfold dict_display. rewrite fold_insert_lookup, lookup_empty.
  by destruct (last_binding items k).
Qed.

Lemma last_binding_elem_of items k v :
  last_binding items k = Some v -> (k, v) ∈ items.
Proof.
  induction items as [|[k' v'] rest IH]; simpl; [done|].
  destruct (last_binding rest k) as [w|].
  - intros [= ->]. right. by apply IH.
  - case_decide; [|done]. intros [= ->]. subst k'. left.
Qed.

Lemma last_binding_None items k :
  last_binding items k = None <-> k ∉ items.*1.
Proof.
  induction items as [|[k' v'] rest IH]; simpl.
  - split; [intros _; apply not_elem_of_nil | done].
  - rewrite not_elem_of_cons. destruct (last_binding rest k) as [w|].
    + split; [done|]. intros [_ Hk]. by apply IH in Hk.
    + case_decide; split; try done.
      * intros [Hne _]. by subst.
      * intros _. split; [congruence | by apply IH].
Qed.

Lemma last_binding_NoDup items k v :
  NoDup items.*1 -> (k, v) ∈ items -> last_binding items k = Some v.
Proof.
  induction items as [|[k' v'] rest IH]; simpl; [by intros _ ?%elem_of_nil|].
  intros [Hfresh Hnd]%NoDup_cons [[= -> ->] | Hin]%elem_of_cons.
  - apply last_binding_None in Hfresh. rewrite Hfresh. by case_decide.
  - by rewrite (IH Hnd Hin).
Qed.

(** With pairwise distinct keys no item replaces another: the bindings of
    the display are exactly its items. *)
Lemma dict_display_list_to_map items :
  NoDup items.*1 -> dict_display items = list_to_map items.
Proof.
  intros Hnd. apply map_eq; intros k. rewrite dict_display_lookup.
  destruct (last_binding items k) as [v|] eqn:Hk.
  - symmetry. apply elem_of_list_to_map; [done|].
    by apply last_binding_elem_of.
  - symmetry. apply not_elem_of_list_to_map. by apply last_binding_None.
Qed.

End DictDisplay.

(** ** Basic facts about [URL] *)

Lemma URL_items_keys_NoDup : NoDup URL_items.*1.
Proof. apply (bool_decide_unpack _). vm_compute. exact I. Qed.

Lemma URL_items_values_NoDup : NoDup URL_items.*2.
Proof. apply (bool_decide_unpack _). vm_compute. exact I. Qed.

Lemma URL_lookup_Some id loc :
  URL !! id = Some loc <-> (id, loc) ∈ URL_items.
Proof.
  unfold URL. rewrite dict_display_lookup. split.
  - apply last_binding_elem_of.
  - apply last_binding_NoDup, URL_items_keys_NoDup.
Qed.

Lemma URL_lookup_None id :
  URL !! id = None <-> id ∉ URL_items.*1.
Proof. unfold URL. rewrite dict_display_lookup. apply last_binding_None. Qed.

Lemma URL_list_to_map : URL = list_to_map URL_items.
Proof. apply dict_display_list_to_map, URL_items_keys_NoDup. Qed.

(** C1. Each of the three identifiers of the registry is looked up to the
    literal location written for it in the source, character for character. *)
Theorem lookup_defined_identifiers :
  lookup "model_v0.5.0"
    = inr "https://af3-dev.tos-cn-beijing.volces.com/release_model/model_v0.5.0.pt"
  /\ lookup "ccd_components_file"
    = inr "https://af3-dev.tos-cn-beijing.volces.com/release_data/components.v20240608.cif"
  /\ lookup "ccd_components_rdkit_mol_file"
    = inr "https://af3-dev.tos-cn-beijing.volces.com/release_data/components.v20240608.cif.rdkit_mol.pkl".
Proof. repeat split; vm_compute; reflexivity. Qed.

(** ** Which identifiers the registry knows *)

Lemma URL_items_keys : list_to_set URL_items.*1 = spec_identifiers.
Proof. unfold spec_identifiers. simpl. set_solver. Qed.

Lemma URL_lookup_spec_identifiers id :
  is_Some (URL !! id) <-> id ∈ spec_identifiers.
Proof.
  rewrite <- URL_items_keys, elem_of_list_to_set, <- not_eq_None_Some.
  rewrite URL_lookup_None. split; [apply dec_stable | by intros ? ?].
Qed.

Lemma URL_dom : dom URL = spec_identifiers.
Proof.
  apply set_eq. intros id. rewrite elem_of_dom.
  apply URL_lookup_spec_identifiers.
Qed.

Lemma URL_map_to_list : map_to_list URL ≡ₚ URL_items.
Proof.
  rewrite URL_list_to_map. apply map_to_list_to_map, URL_items_keys_NoDup.
Qed.

(** C2. An identifier outside the three of the registry is looked up to a
    [KeyError] (not found) for that identifier, and no lookup of a string
    identifier fails in any other way: whenever [lookup] fails, the failure is
    the [KeyError] of an identifier the registry does not have. *)
Theorem lookup_not_found :
  (forall id, id ∉ spec_identifiers -> lookup id = inl (KeyError id))
  /\ (forall id e, lookup id = inl e -> e = KeyError id /\ id ∉ spec_identifiers).
Proof.
  split.
  - intros id Hid. unfold lookup, dict_getitem.
    rewrite <- URL_lookup_spec_identifiers, <- eq_None_not_Some in Hid.
    by rewrite Hid.
  - intros id e. unfold lookup, dict_getitem.
    destruct (URL !! id) as [v|] eqn:Hv; [done|]. intros [= <-].
    split; [done|]. rewrite <- URL_lookup_spec_identifiers, Hv.
    by intros [? ?].
Qed.

Lemma lookup_not_found_witness :
  lookup "does_not_exist" = inl (KeyError "does_not_exist")
  /\ (KeyError "does_not_exist" = KeyError "does_not_exist"
      /\ "does_not_exist" ∉ spec_identifiers).
Proof.
  split.
  - apply (proj1 lookup_not_found "does_not_exist"). vm_compute. discriminate.
  - apply (proj2 lookup_not_found "does_not_exist"). vm_compute. reflexivity.
Defined.

(** C3. The keys of the registry are exactly the three identifiers
    [model_v0.5.0], [ccd_components_file] and [ccd_components_rdkit_mol_file]:
    each of them has an entry and no other string has one. *)
Theorem URL_domain :
  dom URL = spec_identifiers
  /\ forall id,
       is_Some (URL !! id)
       <-> id = "model_v0.5.0" \/ id = "ccd_components_file"
           \/ id = "ccd_components_rdkit_mol_file".
Proof.
  split; [apply URL_dom|].
  intros id. rewrite URL_lookup_spec_identifiers. unfold spec_identifiers.
  rewrite !elem_of_union, !elem_of_singleton. tauto.
Qed.

(** ** Entries *)

(** C4. No identifier is the key of two items of the literal: the keys of the
    items are pairwise distinct, every identifier heads at most one item, and
    the dict holds exactly the items of the literal, one entry per item. *)
Theorem URL_identifiers_unique :
  NoDup URL_items.*1
  /\ (forall id, length (filter (fun kv => kv.1 = id) URL_items) <= 1)
  /\ map_to_list URL ≡ₚ URL_items
  /\ size URL = length URL_items.
Proof.
  pose proof URL_map_to_list as Hperm.
  split; [apply URL_items_keys_NoDup|]. split; [|split; [done|]].
  - intros id. unfold URL_items. rewrite !filter_cons, filter_nil.
    repeat case_decide; simplify_eq/=; lia.
  - unfold size, map_size. by rewrite <- Hperm, length_map_to_list.
Qed.

(** The entries of the dict, one case per item of the literal. *)
Lemma URL_lookup_cases id loc :
  URL !! id = Some loc ->
  (id, loc) = ("model_v0.5.0",
     "https://af3-dev.tos-cn-beijing.volces.com/release_model/model_v0.5.0.pt")
  \/ (id, loc) = ("ccd_components_file",
     "https://af3-dev.tos-cn-beijing.volces.com/release_data/components.v20240608.cif")
  \/ (id, loc) = ("ccd_components_rdkit_mol_file",
     "https://af3-dev.tos-cn-beijing.volces.com/release_data/components.v20240608.cif.rdkit_mol.pkl").
Proof.
  rewrite URL_lookup_Some. unfold URL_items.
  rewrite !elem_of_cons, elem_of_nil. tauto.
Qed.

(** C5. Every location of the registry is an absolute URL: it is not empty,
    it starts with [https://], and what follows the scheme is a non-empty
    host and, from the first slash on, a non-empty path. *)
Theorem URL_locations_well_formed id loc :
  URL !! id = Some loc ->
  loc <> ""
  /\ String.prefix "https://" loc = true
  /\ exists host path,
       url_parts loc = Some (host, path)
       /\ loc = String.append "https://" (String.append host path)
       /\ host <> "" /\ path <> "".
Proof.
  intros [H | [H | H]]%URL_lookup_cases; injection H as -> ->;
    (split; [done|]); (split; [reflexivity|]);
    eexists _, _; (split; [vm_compute; reflexivity|]); by repeat split.
Qed.

Lemma URL_locations_well_formed_witness :
  let loc :=
    "https://af3-dev.tos-cn-beijing.volces.com/release_data/components.v20240608.cif" in
  loc <> ""
  /\ String.prefix "https://" loc = true
  /\ exists host path,
       url_parts loc = Some (host, path)
       /\ loc = String.append "https://" (String.append host path)
       /\ host <> "" /\ path <> "".
Proof.
  apply (URL_locations_well_formed "ccd_components_file"). vm_compute. reflexivity.
Defined.

(** C9. The locations of the registry are pairwise distinct: two identifiers
    with the same location are the same identifier. *)
Theorem URL_locations_distinct id1 id2 loc :
  URL !! id1 = Some loc -> URL !! id2 = Some loc -> id1 = id2.
Proof.
  rewrite !URL_lookup_Some. intros H1 H2.
  pose proof URL_items_keys_NoDup as Hk.
  pose proof URL_items_values_NoDup as Hv.
  apply list_elem_of_lookup in H1 as [i Hi], H2 as [j Hj].
  assert (i = j) as ->; [|congruence].
  apply (NoDup_lookup (URL_items.*2) i j loc Hv);
    rewrite list_lookup_fmap; [by rewrite Hi | by rewrite Hj].
Qed.

Lemma URL_locations_distinct_witness :
  "model_v0.5.0" = "model_v0.5.0".
Proof.
  apply (URL_locations_distinct "model_v0.5.0" "model_v0.5.0"
           "https://af3-dev.tos-cn-beijing.volces.com/release_model/model_v0.5.0.pt");
    vm_compute; reflexivity.
Defined.

(** C10. The location of [ccd_components_rdkit_mol_file] is the location of
    [ccd_components_file] followed by [.rdkit_mol.pkl], and every location of
    the registry starts with [https://af3-dev.tos-cn-beijing.volces.com/], so
    that all resources are on the one host. *)
Theorem URL_locations_related :
  (exists base,
      URL !! "ccd_components_file" = Some base
      /\ URL !! "ccd_components_rdkit_mol_file"
         = Some (String.append base ".rdkit_mol.pkl"))
  /\ forall id loc,
       URL !! id = Some loc ->
       String.prefix "https://af3-dev.tos-cn-beijing.volces.com/" loc = true
       /\ exists path,
            url_parts loc = Some ("af3-dev.tos-cn-beijing.volces.com", path).
Proof.
  split.
  - eexists. split; vm_compute; reflexivity.
  - intros id loc [H | [H | H]]%URL_lookup_cases; injection H as -> ->;
      (split; [reflexivity|]); eexists; vm_compute; reflexivity.
Qed.

Lemma URL_locations_related_witness :
  let loc :=
    "https://af3-dev.tos-cn-beijing.volces.com/release_model/model_v0.5.0.pt" in
  String.prefix "https://af3-dev.tos-cn-beijing.volces.com/" loc = true
  /\ exists path,
       url_parts loc = Some ("af3-dev.tos-cn-beijing.volces.com", path).
Proof.
  apply (proj2 URL_locations_related "model_v0.5.0"). vm_compute. reflexivity.
Defined.

(** ** Reads leave the dict as it is *)

Lemma lookup_st_URL id : lookup_st id URL = (lookup id, URL).
Proof. reflexivity. Qed.

Lemma run_lookups_frame ids d :
  run_lookups ids d = ((fun id => dict_getitem d (PyStr id)) <$> ids, d).
Proof.
  induction ids as [|id rest IH]; simpl; [done|].
  unfold lookup_st, getitem_st. by rewrite IH.
Qed.

(** What a lookup returns: the location the literal gives the identifier, or
    the [KeyError] of an identifier the literal does not have. *)
Lemma lookup_result id :
  (exists loc, (id, loc) ∈ URL_items /\ lookup id = inr loc)
  \/ ((id ∉ spec_identifiers) /\ lookup id = inl (KeyError id)).
Proof.
  unfold lookup, dict_getitem. destruct (URL !! id) as [loc|] eqn:Hid.
  - left. exists loc. by rewrite <- URL_lookup_Some.
  - right. split; [|done].
    rewrite <- URL_lookup_spec_identifiers, Hid. by intros [? ?].
Qed.

(** C6. Looking the same identifier up again gives the same result every
    time.  The result is the location the literal gives the identifier, or,
    for an identifier the literal does not have, the [KeyError] of that
    identifier; two lookups in a row both return it, and so does every lookup
    of the identifier in any sequence of lookups, whatever was looked up
    before it and in between. *)
Theorem lookup_twice id :
  ((exists loc, (id, loc) ∈ URL_items /\ lookup id = inr loc)
   \/ ((id ∉ spec_identifiers) /\ lookup id = inl (KeyError id)))
  /\ (let '(r1, d1) := lookup_st id URL in
      let '(r2, d2) := lookup_st id d1 in
      r1 = r2 /\ r1 = lookup id)
  /\ forall ids i,
       ids !! i = Some id ->
       (run_lookups ids URL).1 !! i = Some (lookup id).
Proof.
  split; [apply lookup_result|]. split; [by rewrite !lookup_st_URL|].
  intros ids i Hi. rewrite run_lookups_frame. simpl.
  by rewrite list_lookup_fmap, Hi.
Qed.

Lemma lookup_twice_witness :
  (run_lookups ["does_not_exist"; "model_v0.5.0"; "ccd_components_file";
                "model_v0.5.0"] URL).1 !! 3
  = Some (lookup "model_v0.5.0").
Proof.
  apply (proj2 (proj2 (lookup_twice "model_v0.5.0"))). reflexivity.
Defined.

(** C7. Whatever identifiers are looked up, present or not, the dict after
    the lookups is the dict of the literal: same identifiers, same location
    for each of them. *)
Theorem run_lookups_registry_unchanged ids :
  let d := (run_lookups ids URL).2 in
  d = URL
  /\ dom d = spec_identifiers
  /\ map_to_list d ≡ₚ URL_items
  /\ forall id, dict_getitem d (PyStr id) = lookup id.
Proof.
  rewrite run_lookups_frame. simpl.
  split; [done|]. split; [apply URL_dom|].
  split; [apply URL_map_to_list | done].
Qed.

(** ** Interleaved callers *)

Section Interleaving.

Implicit Types (c : config) (t : nat).
Implicit Types (tr : list (nat * string * (exn + string))).

Lemma called_app t tr1 tr2 :
  called t (tr1 ++ tr2) = called t tr1 ++ called t tr2.
Proof. unfold called, events_of. by rewrite filter_app, fmap_app. Qed.

Lemma called_singleton t t' id r :
  called t [(t', id, r)] = if decide (t' = t) then [id] else [].
Proof.
  unfold called, events_of. rewrite filter_cons, filter_nil. simpl.
  by case_decide.
Qed.

(** One scheduled read: the dict stays, the log grows by at most the read,
    whose result is that of the subscription, and only the scheduled thread
    moves on, by the identifier it had first in line. *)
Lemma sched_step_spec c t0 :
  let c' := sched_step c t0 in
  registry c' = registry c
  /\ exists tr,
       trace c' = trace c ++ tr
       /\ Forall (fun e => e.2 = dict_getitem (registry c) (PyStr e.1.2)) tr
       /\ forall t,
            called t tr ++ default [] (pending c' !! t)
            = default [] (pending c !! t).
Proof.
  unfold sched_step.
  destruct (pending c !! t0) as [[|id rest]|] eqn:Ht0; simpl;
    try (split; [done|]; exists []; rewrite app_nil_r; by repeat split).
  split; [done|]. eexists [_]. split; [done|].
  split; [by repeat constructor|].
  intros t. rewrite called_singleton. case_decide as Ht.
  - subst t. rewrite list_lookup_insert_eq by (by eapply lookup_lt_Some).
    by rewrite Ht0.
  - by rewrite list_lookup_insert_ne.
Qed.

Lemma run_schedule_spec sched c :
  let c' := run_schedule sched c in
  registry c' = registry c
  /\ exists tr,
       trace c' = trace c ++ tr
       /\ Forall (fun e => e.2 = dict_getitem (registry c) (PyStr e.1.2)) tr
       /\ forall t,
            called t tr ++ default [] (pending c' !! t)
            = default [] (pending c !! t).
Proof.
  revert c. induction sched as [|t0 sched IH]; intros c; simpl.
  - split; [done|]. exists []. rewrite app_nil_r. by repeat split.
  - destruct (IH (sched_step c t0)) as (Hreg & tr2 & Htr2 & Hres2 & Hord2).
    destruct (sched_step_spec c t0) as (Hreg1 & tr1 & Htr1 & Hres1 & Hord1).
    unfold run_schedule in *. simpl in *.
    split; [congruence|]. exists (tr1 ++ tr2).
    split; [by rewrite Htr2, Htr1, app_assoc|].
    split; [apply Forall_app; split; [done|]; by rewrite <- Hreg1|].
    intros t. by rewrite called_app, <- app_assoc, Hord2, Hord1.
Qed.

Lemma observed_sequential t tr d :
  Forall (fun e => e.2 = dict_getitem d (PyStr e.1.2)) tr ->
  observed t tr = (run_lookups (called t tr) d).1.
Proof.
  intros Hres. rewrite run_lookups_frame. simpl.
  unfold observed, called, events_of.
  induction Hres as [|e tr He Hres IH]; [done|].
  rewrite filter_cons. case_decide; [|done].
  rewrite !fmap_cons. by rewrite IH, He.
Qed.

End Interleaving.

(** C8. However the reads of any number of threads are interleaved on the one
    dict, no synchronisation being modelled between them, the dict stays the
    dict of the literal, every read returns what [lookup] returns for its
    identifier, and each thread sees, in its own order, exactly the results it
    would get running its lookups alone on the registry. *)
Theorem concurrent_lookups_sequential (threads : list (list string))
    (sched : list nat) :
  let c := run_schedule sched (initial threads) in
  registry c = URL
  /\ Forall (fun e => e.2 = lookup e.1.2) (trace c)
  /\ forall t,
       observed t (trace c) = (run_lookups (called t (trace c)) URL).1
       /\ called t (trace c) ++ default [] (pending c !! t)
          = default [] (threads !! t).
Proof.
  destruct (run_schedule_spec sched (initial threads))
    as (Hreg & tr & Htr & Hres & Hord).
  simpl in *. rewrite Htr. split; [done|]. split; [done|].
  intros t. split; [by apply observed_sequential | apply Hord].
Qed.

(** Two threads, the second scheduled first; the schedule also names a thread
    that does not exist and one that has nothing left to do. *)
Example run_schedule_two_threads :
  let c := run_schedule [1; 0; 7; 0; 1]
             (initial [["model_v0.5.0"; "does_not_exist"]; ["ccd_components_file"]]) in
  trace c
  = [ (1, "ccd_components_file",
       inr "https://af3-dev.tos-cn-beijing.volces.com/release_data/components.v20240608.cif");
      (0, "model_v0.5.0",
       inr "https://af3-dev.tos-cn-beijing.volces.com/release_model/model_v0.5.0.pt");
      (0, "does_not_exist", inl (KeyError "does_not_exist")) ]
  /\ pending c = [[]; []].
Proof. vm_compute. split; reflexivity. Qed.

(** ** Further properties of the entries *)

(** X1. A location is nothing but scheme, host and path: the host is made of
    letters, digits, [-], [.], [_] and [~] only (so it carries no user name
    and no port), and the path of such characters and slashes only (no query,
    no fragment, no blank, nothing that needs percent-encoding). *)
Theorem URL_locations_plain id loc :
  URL !! id = Some loc ->
  exists host path,
    url_parts loc = Some (host, path)
    /\ string_forallb unreserved host = true
    /\ string_forallb path_char path = true.
Proof.
  intros [H | [H | H]]%URL_lookup_cases; injection H as -> ->;
    eexists _, _; (split; [vm_compute; reflexivity|]);
    split; vm_compute; reflexivity.
Qed.

Lemma URL_locations_plain_witness :
  exists host path,
    url_parts "https://af3-dev.tos-cn-beijing.volces.com/release_model/model_v0.5.0.pt"
    = Some (host, path)
    /\ string_forallb unreserved host = true
    /\ string_forallb path_char path = true.
Proof.
  apply (URL_locations_plain "model_v0.5.0"). vm_compute. reflexivity.
Defined.

(** X2. Every location names a file, and no two identifiers share a file
    name: the part after the last slash is not empty, and two entries whose
    locations end in the same file name are entries of the same identifier. *)
Theorem URL_file_names_distinct id1 id2 loc1 loc2 :
  URL !! id1 = Some loc1 ->
  URL !! id2 = Some loc2 ->
  basename loc1 <> ""
  /\ (basename loc1 = basename loc2 -> id1 = id2).
Proof.
  intros [H1 | [H1 | H1]]%URL_lookup_cases [H2 | [H2 | H2]]%URL_lookup_cases;
    injection H1 as -> ->; injection H2 as -> ->;
    (split; [vm_compute; discriminate|]);
    solve [reflexivity | vm_compute; discriminate].
Qed.

Lemma URL_file_names_distinct_witness :
  basename "https://af3-dev.tos-cn-beijing.volces.com/release_data/components.v20240608.cif"
    <> ""
  /\ (basename "https://af3-dev.tos-cn-beijing.volces.com/release_data/components.v20240608.cif"
      = basename "https://af3-dev.tos-cn-beijing.volces.com/release_data/components.v20240608.cif.rdkit_mol.pkl"
      -> "ccd_components_file" = "ccd_components_rdkit_mol_file").
Proof.
  apply (URL_file_names_distinct "ccd_components_file"
           "ccd_components_rdkit_mol_file"); vm_compute; reflexivity.
Defined.

(** X3. Where a resource lies follows from its identifier: an identifier
    starting with [model_] has its location in [release_model/], under the
    file name made of the identifier and [.pt]; every other identifier has
    its file directly in [release_data/]. *)
Theorem URL_layout id loc :
  URL !! id = Some loc ->
  if String.prefix "model_" id
  then loc = String.append release_root
               (String.append "release_model/" (String.append id ".pt"))
  else loc = String.append release_root
               (String.append "release_data/" (basename loc)).
Proof.
  intros [H | [H | H]]%URL_lookup_cases; injection H as -> ->;
    vm_compute; by repeat split.
Qed.

Lemma URL_layout_witness :
  "https://af3-dev.tos-cn-beijing.volces.com/release_model/model_v0.5.0.pt"
  = String.append release_root
      (String.append "release_model/" (String.append "model_v0.5.0" ".pt")).
Proof.
  apply (URL_layout "model_v0.5.0"). vm_compute. reflexivity.
Defined.

(** ** The order of the items *)

(** Displays of the same items with pairwise distinct keys bind every key
    alike, in whatever order the items are written. *)
Lemma dict_display_lookup_Permutation (items1 items2 : list (string * string)) k :
  NoDup items1.*1 -> items1 ≡ₚ items2 ->
  dict_display items1 !! k = dict_display items2 !! k.
Proof.
  intros Hnd Hperm.
  assert (NoDup items2.*1) by (by rewrite <- Hperm).
  rewrite !dict_display_lookup.
  destruct (last_binding items1 k) as [v|] eqn:Hk.
  - symmetry. apply last_binding_NoDup; [done|].
    rewrite <- Hperm. by apply last_binding_elem_of.
  - symmetry. apply last_binding_None. rewrite <- Hperm.
    by apply last_binding_None.
Qed.

(** X4. What a subscription returns does not depend on the order in which the
    literal lists its items: on a display of the same items in any other
    order, a subscription by an identifier of the literal, by any other string
    or by an unhashable key gives the result it gives on [URL].  Only
    subscription is compared: the order in which a dict enumerates its keys
    does follow the order of the items and is no part of the statement. *)
Theorem URL_order_irrelevant (items : list (string * string)) (key : pykey) :
  items ≡ₚ URL_items ->
  dict_getitem (dict_display items) key = dict_getitem URL key.
Proof.
  intros Hperm. destruct key as [s|]; [|done]. unfold dict_getitem, URL.
  by rewrite (dict_display_lookup_Permutation URL_items items s
                URL_items_keys_NoDup).
Qed.

Lemma URL_order_irrelevant_witness :
  dict_getitem (dict_display (reverse URL_items)) (PyStr "ccd_components_file")
  = dict_getitem URL (PyStr "ccd_components_file").
Proof.
  apply (URL_order_irrelevant (reverse URL_items)). apply reverse_Permutation.
Defined.
